(** * data_mining_flight: the CSV truncation pipeline and the dataset loader

    A shallow embedding of [src/data_mining_flight/truncate_data.py] and of
    [load_dataset] from [src/data_mining_flight/data_fetching.py].

    The Python code is a thin layer over pandas.  The functions of the
    repository are embedded one to one, under their own names; the pandas
    calls they make ([read_csv], [value_counts], [sort_values], [iloc],
    [to_csv], the comparison of a column with a string) are embedded next to
    them, as far as the code of the repository depends on them.

    Conventions.
    - A CSV file is held as its header and its data records, already split
      into cells: the tokenizer (quoting, delimiters) is not modelled.
    - Python exceptions are results [Raise e]; nothing in
      [truncate_data.py] catches one, so a [Raise] runs through to the
      caller.
    - The filesystem is a finite map from paths to CSV files, paths are
      plain strings and are taken as absolute.  A write puts the file into
      the map: directories, permissions and the limits of the file system
      are not part of it, so the statements about [main] ask for names
      without a [/], which stay in the directory [main] makes.
    - The readers are given for files whose header labels are distinct and
      not empty and whose records are no longer than the header
      ([well_formed]).  On other files pandas renames labels, takes the
      leading cells of the records as an index or raises [ParserError]; the
      statements that depend on the cells of a file ask for a well-formed
      one. *)

From Stdlib Require Import ZArith NArith String Ascii List Permutation Lia.
From Stdlib Require Import Sorting.Sorted.
From stdpp Require Import base option list gmap strings fin_maps sorting pretty.

Open Scope string_scope.
Open Scope list_scope.

(** ** Exceptions *)

Module Exn.

(** The exception classes that occur.  [ParserError], [EmptyDataError] (both
    of pandas) and [UnicodeDecodeError] derive from [ValueError];
    [FileNotFoundError] derives from [OSError]. *)
Inductive class :=
| ValueError | UnicodeDecodeError | ParserError | EmptyDataError
| OSError | FileNotFoundError
| IndexError | KeyError | TypeError
| Other (name : string).

Record t := mk { cls : class; msg : string }.

(** [isinstance(e, ValueError)] *)
Definition is_ValueError (e : t) : bool :=
  match cls e with
  | ValueError | UnicodeDecodeError | ParserError | EmptyDataError => true
  | _ => false
  end.

End Exn.

Inductive result (A : Type) :=
| Ok (a : A)
| Raise (e : Exn.t).
Arguments Ok {A} a.
Arguments Raise {A} e.

Definition raise {A} (c : Exn.class) (m : string) : result A :=
  Raise (Exn.mk c m).

(** Sequencing: an exception ends the computation ([x ← r; k] below). *)
#[global] Instance result_ret : MRet result := fun A a => Ok a.
#[global] Instance result_bind : MBind result := fun A B k r =>
  match r with
  | Ok a => k a
  | Raise e => Raise e
  end.

(** The class of the exception a computation ends with, if any. *)
Definition raises {A} (r : result A) (c : Exn.class) : Prop :=
  exists m, r = Raise (Exn.mk c m).

(** ** CSV files and the filesystem *)

Record csv := mk_csv {
  columns : list string;          (* the header line *)
  rows : list (list string)       (* the data records, cell by cell;
                                     blank lines are no records *)
}.

Abbreviation filesystem := (gmap string csv).

(** The position of a column label in a header (the first one, where a
    label repeats). *)
Fixpoint index_of (name : string) (cols : list string) : option nat :=
  match cols with
  | [] => None
  | c :: cols' =>
      if String.eqb c name then Some 0%nat
      else option_map S (index_of name cols')
  end.

(** The text of cell [i] of a record; a record shorter than the header
    has empty cells at its end.  For a record longer than the header this
    is not the cell pandas reads ([well_formed] rules those out). *)
Definition cell (i : nat) (r : list string) : string :=
  default "" (r !! i).

(** ** pandas: missing values *)

(** The words [read_csv] reads as a missing value (its default
    [na_values], with [keep_default_na=True]). *)
Definition na_values : list string :=
  [ ""; "#N/A"; "#N/A N/A"; "#NA"; "-1.#IND"; "-1.#QNAN"; "-NaN"; "-nan";
    "1.#IND"; "1.#QNAN"; "<NA>"; "N/A"; "NA"; "NULL"; "NaN"; "None";
    "n/a"; "nan"; "null" ].

Definition is_na (raw : string) : bool :=
  existsb (String.eqb raw) na_values.

(** A cell read with [dtype="string"]: its text, or [None] for [pd.NA]. *)
Definition string_value (raw : string) : option string :=
  if is_na raw then None else Some raw.

(** ** pandas: chunked reading *)

(** [n] records at a time; the last chunk may be shorter.  [fuel] bounds
    the number of chunks, [length l] is enough when [1 <= n]
    ([concat_chunks_of]). *)
Fixpoint chunks_aux {A} (fuel n : nat) (l : list A) : list (list A) :=
  match fuel with
  | O => []
  | S fuel' =>
      match l with
      | [] => []
      | _ :: _ => take n l :: chunks_aux fuel' n (drop n l)
      end
  end.

Definition chunks_of {A} (n : nat) (l : list A) : list (list A) :=
  chunks_aux (length l) n l.

(** The chunks the iterator of [read_csv(..., chunksize=n)] yields over the
    data records: a file without data records yields one empty chunk (the
    parser answers its first read with an empty frame), any other file
    yields its records [n] at a time. *)
Definition iter_chunks {A} (n : nat) (l : list A) : list (list A) :=
  match l with
  | [] => [[]]
  | _ :: _ => chunks_of n l
  end.

(** What every [read_csv] call of the program checks before the first
    chunk is read: the chunk size, then the file. *)
Definition open_csv (fs : filesystem) (csv_path : string) (chunksize : Z)
  : result csv :=
  if (chunksize <? 1)%Z then
    raise Exn.ValueError "'chunksize' must be an integer >=1"
  else
    match fs !! csv_path with
    | None => raise Exn.FileNotFoundError ("No such file or directory: " +:+ csv_path)
    | Some src =>
        match columns src with
        | [] => raise Exn.EmptyDataError "No columns to parse from file"
        | _ :: _ => Ok src
        end
    end.

(** [pd.read_csv(csv_path, usecols=[date_column],
                 dtype={date_column: "string"}, chunksize=chunksize,
                 low_memory=True)]:
    the chunks of the one column, every cell a string or [pd.NA].  The column
    is looked up when the reader is built, before any chunk is read, among
    the labels of the header as they stand (pandas looks among the labels
    after its renaming, the same on a well-formed file).  The text of the
    error is that of pandas for a plain column name. *)
Definition read_csv_usecols (fs : filesystem) (csv_path date_column : string)
    (chunksize : Z) : result (list (list (option string))) :=
  src ← open_csv fs csv_path chunksize;
  match index_of date_column (columns src) with
  | None =>
      raise Exn.ValueError
        ("Usecols do not match columns, columns expected but not found: ['"
           +:+ date_column +:+ "']")
  | Some i =>
      Ok (iter_chunks (Z.to_nat chunksize)
            (map (fun r => string_value (cell i r)) (rows src)))
  end.

(** ** Daily aggregation *)

(** [Series.value_counts()]: every distinct value with the number of times
    it occurs; missing values are dropped ([dropna=True] is the default).
    pandas orders the pairs by falling count; the order here is that of the
    last occurrences.  [compute_daily_counts] only adds the pairs into a
    dict, which no order of the pairs changes ([merge_counts_lookup]). *)
Definition value_counts (col : list (option string)) : list (string * nat) :=
  let vals := omap id col in
  map (fun d => (d, count_occ string_dec vals d)) (remove_dups vals).

(** The loop body over [vc.items()]:
    [counts[d] = counts.get(d, 0) + int(c)]. *)
Definition add_count (counts : gmap string nat) (dc : string * nat)
  : gmap string nat :=
  <[ fst dc := (default 0 (counts !! fst dc) + snd dc)%nat ]> counts.

Definition merge_counts (counts : gmap string nat) (vc : list (string * nat))
  : gmap string nat :=
  foldl add_count counts vc.

(** The order of Python on [(str, int)] tuples: by the string, then by the
    number.  Strings compare character by character. *)
Definition item_le (x y : string * nat) : Prop :=
  String.ltb (fst x) (fst y) = true \/
  (fst x = fst y /\ (snd x <= snd y)%nat).

#[global] Instance item_le_dec x y : Decision (item_le x y).
Proof. unfold item_le. apply _. Defined.

(** [sorted(counts.items())] *)
Definition sorted_items (counts : gmap string nat) : list (string * nat) :=
  merge_sort item_le (map_to_list counts).

(** The daily count table: the rows of the frame
    [pd.DataFrame(..., columns=[date_column, "count"])], a date and its
    count.  The labels of the frame are [date_column] and ["count"]; where
    the code takes a column by its label ([get_middle_date]) the two must
    differ. *)
Abbreviation daily_counts_table := (list (string * nat)).

Definition compute_daily_counts (fs : filesystem) (csv_path date_column : string)
    (chunksize : Z) : result daily_counts_table :=
  chunks ← read_csv_usecols fs csv_path date_column chunksize;
  let counts :=
    foldl (fun counts chunk => merge_counts counts (value_counts chunk))
          (∅ : gmap string nat) chunks in
  Ok (sorted_items counts).


(** ** pandas: reading without a declared dtype *)

(** [write_truncated_day] calls [read_csv] without [dtype], so the parser
    infers the type of every column from its cells.  What follows is the
    cast order of the C parser: int64, float64, bool, object. *)

Definition is_space (c : ascii) : bool :=
  let n := N_of_ascii c in ((n =? 32) || ((9 <=? n) && (n <=? 13)))%N.

Definition is_digit (c : ascii) : bool :=
  let n := N_of_ascii c in ((48 <=? n) && (n <=? 57))%N.

Fixpoint skip_spaces (l : list ascii) : list ascii :=
  match l with
  | c :: l' => if is_space c then skip_spaces l' else l
  | [] => []
  end.

Fixpoint span_digits (l : list ascii) : list ascii * list ascii :=
  match l with
  | c :: l' =>
      if is_digit c then let (ds, rest) := span_digits l' in (c :: ds, rest)
      else ([], l)
  | [] => ([], [])
  end.

(** An optional sign; [true] for a minus. *)
Definition skip_sign (l : list ascii) : bool * list ascii :=
  match l with
  | c :: l' =>
      if Ascii.eqb c "-" then (true, l')
      else if Ascii.eqb c "+" then (false, l')
      else (false, l)
  | [] => (false, [])
  end.

Definition digits_value (ds : list ascii) : Z :=
  foldl (fun acc c => (acc * 10 + (Z.of_N (N_of_ascii c) - 48))%Z) 0%Z ds.

(** [str_to_int64] of the tokenizer, without its range check: spaces, a
    sign, at least one digit, spaces. *)
Definition int_literal (raw : string) : option Z :=
  let (neg, l) := skip_sign (skip_spaces (list_ascii_of_string raw)) in
  let (ds, rest) := span_digits l in
  match ds, skip_spaces rest with
  | _ :: _, [] => Some (if neg then (- digits_value ds)%Z else digits_value ds)
  | _, _ => None
  end.

Definition lower (c : ascii) : ascii :=
  let n := N_of_ascii c in
  if ((65 <=? n) && (n <=? 90))%N then ascii_of_N (n + 32) else c.

Definition lowercase (s : string) : string :=
  string_of_list_ascii (map lower (list_ascii_of_string s)).

(** [xstrtod] of the tokenizer: spaces, a sign, digits with an optional
    decimal point (one digit at least), an optional exponent, spaces; and
    the words for infinity, in any case. *)
Definition is_float_literal (raw : string) : bool :=
  let (_, l) := skip_sign (skip_spaces (list_ascii_of_string raw)) in
  let (ip, r1) := span_digits l in
  let (fp, r2) :=
    match r1 with
    | c :: r => if Ascii.eqb c "." then span_digits r else ([], r1)
    | [] => ([], [])
    end in
  let r3 :=
    match r2 with
    | c :: r =>
        if Ascii.eqb (lower c) "e" then
          let (_, r') := skip_sign r in
          let (ed, r'') := span_digits r' in
          match ed with [] => r2 | _ :: _ => r'' end
        else r2
    | [] => []
    end in
  match ip ++ fp, skip_spaces r3 with
  | _ :: _, [] => true
  | _, _ =>
      existsb (String.eqb (lowercase raw))
        ["inf"; "-inf"; "+inf"; "infinity"; "-infinity"; "+infinity"]
  end.

(** The default [true_values] and [false_values]. *)
Definition bool_word (raw : string) : option bool :=
  if existsb (String.eqb raw) ["True"; "TRUE"; "true"] then Some true
  else if existsb (String.eqb raw) ["False"; "FALSE"; "false"] then Some false
  else None.

Inductive dtype := int64 | uint64 | float64 | bool_ | object_.

Definition in_int64 (z : Z) : bool := ((- 2 ^ 63 <=? z) && (z <? 2 ^ 63))%Z.
Definition in_uint64 (z : Z) : bool := ((0 <=? z) && (z <? 2 ^ 64))%Z.

(** The dtype inferred for the cells of one column.  Integers need every
    cell to be one (a missing cell is none); integers past int64 are read
    as uint64 where all fit, and left as text otherwise.  That last case
    is the one of pandas 2; later versions read such cells as Python
    integers, so the statements on text columns leave out integers past
    int64 ([int64_or_text]). *)
Definition infer_dtype (cells : list string) : dtype :=
  match cells with
  | [] => object_
  | _ :: _ =>
      if forallb (fun c => bool_decide (is_Some (int_literal c))) cells then
        let zs := omap int_literal cells in
        if forallb in_int64 zs then int64
        else if forallb in_uint64 zs then uint64
        else object_
      else if forallb (fun c => is_na c || is_float_literal c) cells then float64
      else if forallb (fun c => is_na c || bool_decide (is_Some (bool_word c))) cells
      then bool_
      else object_
  end.

(** A cell of a frame read without [dtype]: a Python object. *)
Inductive scalar :=
| NaN                      (* a missing value *)
| Str (s : string)
| Int (z : Z)
| Float (literal : string) (* a float, held as the text it was read from *)
| Bool (b : bool).

Definition convert (dt : dtype) (raw : string) : scalar :=
  if is_na raw then NaN
  else
    match dt with
    | int64 | uint64 => Int (default 0%Z (int_literal raw))
    | float64 => Float raw
    | bool_ => Bool (default false (bool_word raw))
    | object_ => Str raw
    end.

Record frame := mk_frame {
  frame_columns : list string;
  frame_rows : list (list scalar)
}.

(** With [low_memory=True] the C parser reads a chunk in blocks of
    [buffer_lines] records, a number it derives from the width of the table,
    infers the dtypes block by block and concatenates the blocks. *)
Fixpoint double_below (fuel : nat) (b heuristic : N) : N :=
  match fuel with
  | O => b
  | S fuel' =>
      if (b * 2 <? heuristic)%N then double_below fuel' (b * 2)%N heuristic
      else b
  end.

Definition buffer_lines (table_width : nat) : nat :=
  N.to_nat (double_below 20 1%N (2 ^ 20 / N.of_nat table_width)%N).

Definition parse_block (cols : list string) (block : list (list string))
  : list (list scalar) :=
  let dtypes :=
    map (fun j => infer_dtype (map (cell j) block)) (seq 0 (length cols)) in
  map (fun r => imap (fun j dt => convert dt (cell j r)) dtypes) block.

Definition parse_chunk (cols : list string) (chunk : list (list string))
  : frame :=
  mk_frame cols
    (concat (map (parse_block cols) (chunks_of (buffer_lines (length cols)) chunk))).

(** [pd.read_csv(csv_path, chunksize=chunksize, low_memory=True)], on a
    well-formed file: the frames carry the header as it stands and every
    record is read. *)
Definition read_csv (fs : filesystem) (csv_path : string) (chunksize : Z)
  : result (list frame) :=
  src ← open_csv fs csv_path chunksize;
  Ok (map (parse_chunk (columns src))
          (iter_chunks (Z.to_nat chunksize) (rows src))).

(** ** pandas: comparing and writing *)

(** One element of [series == target_date] for a string [target_date]: the
    Python [==] of the cell and the string, which only a string can
    satisfy. *)
Definition eq_str (v : scalar) (target : string) : bool :=
  match v with
  | Str s => String.eqb s target
  | _ => false
  end.

(** A cell as [to_csv] writes it ([na_rep] is the empty string).  A float
    is written here as the text it was read from; pandas writes its own
    rendering of the number ([1.50] as [1.5]).  The statements below speak
    of the date column of the rows written, which is text. *)
Definition to_csv_cell (v : scalar) : string :=
  match v with
  | NaN => ""
  | Str s => s
  | Int z => pretty z
  | Float literal => literal
  | Bool b => if b then "True" else "False"
  end.

(** [df.to_csv(path, mode="w" if first else "a", index=False, header=first)] *)
Definition to_csv (fs : filesystem) (path : string) (df : frame) (first : bool)
  : filesystem :=
  let lines := map (map to_csv_cell) (frame_rows df) in
  if first then <[ path := mk_csv (frame_columns df) lines ]> fs
  else
    match fs !! path with
    | Some old => <[ path := mk_csv (columns old) (rows old ++ lines) ]> fs
    | None => <[ path := mk_csv [] lines ]> fs
    end.

(** ** Selection and extraction *)

Definition date_le (x y : string * nat) : Prop :=
  String.leb (fst x) (fst y) = true.

#[global] Instance date_le_dec x y : Decision (date_le x y).
Proof. unfold date_le. apply _. Defined.

(** [daily_counts.sort_values(date_column)]; [len(ordered) // 2];
    [ordered.iloc[mid_idx][date_column]], where [iloc] raises [IndexError]
    past the end.  The frame passed is the one of [compute_daily_counts]
    for the same [date_column], with the labels [date_column] and
    ["count"]: for the date column ["count"] the label is there twice and
    [sort_values] raises [ValueError], whatever the rows. *)
Definition get_middle_date (daily_counts : daily_counts_table)
    (date_column : string) : result string :=
  if String.eqb date_column "count" then
    raise Exn.ValueError "The column label 'count' is not unique."
  else
    let ordered := merge_sort date_le daily_counts in
    let mid_idx := (length ordered / 2)%nat in
    match ordered !! mid_idx with
    | Some row => Ok (fst row)
    | None => raise Exn.IndexError "single positional indexer is out-of-bounds"
    end.

(** [chunk[chunk[date_column] == target_date]] *)
Definition select_rows (i : nat) (target_date : string) (chunk : frame) : frame :=
  mk_frame (frame_columns chunk)
    (List.filter (fun r => eq_str (default NaN (r !! i)) target_date)
                 (frame_rows chunk)).

(** The loop of [write_truncated_day] over the chunks, with its variable
    [first] and the filesystem it writes to. *)
Fixpoint write_chunks (output_path date_column target_date : string)
    (chunks : list frame) (first : bool) (fs : filesystem)
  : filesystem * result unit :=
  match chunks with
  | [] => (fs, Ok tt)
  | chunk :: chunks' =>
      match index_of date_column (frame_columns chunk) with
      | None =>
          (fs, raise Exn.ValueError
                 ("Column '" +:+ date_column +:+ "' not found in CSV."))
      | Some i =>
          let filtered := select_rows i target_date chunk in
          match frame_rows filtered with
          | [] => write_chunks output_path date_column target_date chunks' first fs
          | _ :: _ =>
              write_chunks output_path date_column target_date chunks' false
                (to_csv fs output_path filtered first)
          end
      end
  end.

(** The chunks are read from the filesystem as it is at the call: the model
    stands for runs whose [output_path] is not the file being read. *)
Definition write_truncated_day (fs : filesystem)
    (csv_path output_path date_column target_date : string) (chunksize : Z)
  : filesystem * result unit :=
  match read_csv fs csv_path chunksize with
  | Raise e => (fs, Raise e)
  | Ok chunks => write_chunks output_path date_column target_date chunks true fs
  end.

(** ** The command line *)

Record env := mk_env {
  project_root : string;   (* the directory above the package *)
  plt : bool               (* whether matplotlib could be imported *)
}.




Definition path_join (dir name : string) : string := dir +:+ "/" +:+ name.

(** The truth value of an optional string argument: [None] and the empty
    string are false. *)
Definition truthy (o : option string) : option string :=
  match o with
  | Some "" => None
  | _ => o
  end.

Definition candidates : list string := ["itineraries.csv"].

Fixpoint first_candidate (fs : filesystem) (raw_dir : string)
    (names : list string) : option string :=
  match names with
  | [] => None
  | name :: names' =>
      let p := path_join raw_dir name in
      if bool_decide (is_Some (fs !! p)) then Some p
      else first_candidate fs raw_dir names'
  end.

Definition resolve_paths (e : env) (fs : filesystem) (user_csv : option string)
  : result string :=
  let raw_dir := path_join (path_join (project_root e) "data") "raw" in
  match truthy user_csv with
  | Some csv_path =>
      if bool_decide (is_Some (fs !! csv_path)) then Ok csv_path
      else raise Exn.FileNotFoundError ("Provided --csv not found: " +:+ csv_path)
  | None =>
      match first_candidate fs raw_dir candidates with
      | Some p => Ok p
      | None =>
          raise Exn.FileNotFoundError
            ("No candidate CSV found in " +:+ path_join raw_dir "itineraries.csv"
               +:+ ". Looked for: itineraries.csv. Provide one via --csv.")
      end
  end.

(** [daily_counts.to_csv(daily_counts_path, index=False)] *)
Definition daily_counts_csv (date_column : string) (t : daily_counts_table) : csv :=
  mk_csv [date_column; "count"] (map (fun dc => [fst dc; pretty (snd dc)]) t).





(** ** The dataset loader ([data_fetching.py]) *)

Module DataFetching.

(** The keyword arguments of one attempt: [pandas_kwargs], if given, as
    the list of its entries; a value [None] is Python's [None]. *)
Definition kwargs := option (list (string * option string)).

Definition attempts : list kwargs :=
  [ None;
    Some [("encoding", Some "latin-1")];
    Some [("encoding", Some "latin-1"); ("engine", Some "python");
          ("sep", None); ("on_bad_lines", Some "skip")] ].

Section Loader.
(** The frame type of pandas and the call
    [kagglehub.dataset_load(KaggleDatasetAdapter.PANDAS,
       "dilwong/flightprices", "itineraries.csv", **kwargs)],
    whose outcome depends on the network and on the file. *)
Variable DataFrame : Type.
Variable dataset_load : kwargs -> result DataFrame.

(** The [for] loop with its [try]: [except ValueError as err] keeps the
    error and goes on, any other exception leaves the function; after the
    loop, [raise last_err]. *)
Fixpoint try_attempts (todo : list kwargs) (last_err : option Exn.t)
  : result DataFrame :=
  match todo with
  | [] =>
      match last_err with
      | Some err => Raise err
      | None => raise Exn.TypeError "exceptions must derive from BaseException"
      end
  | kw :: todo' =>
      match dataset_load kw with
      | Ok df => Ok df
      | Raise err =>
          if Exn.is_ValueError err then try_attempts todo' (Some err)
          else Raise err
      end
  end.

Definition load_dataset : result DataFrame := try_attempts attempts None.

(** What the specification says of the loader: the attempts in order, the
    first success, or else the failure of the last attempt. *)
Fixpoint ladder_spec (todo : list kwargs) (last_err : option Exn.t)
  : result DataFrame :=
  match todo with
  | [] =>
      match last_err with
      | Some err => Raise err
      | None => raise Exn.TypeError "exceptions must derive from BaseException"
      end
  | kw :: todo' =>
      match dataset_load kw with
      | Ok df => Ok df
      | Raise err => ladder_spec todo' (Some err)
      end
  end.

Definition load_dataset_spec : result DataFrame := ladder_spec attempts None.
End Loader.

(** A service that is out of reach at the first call and answers the
    second. *)
Definition flaky (kw : kwargs) : result nat :=
  match kw with
  | None => Raise (Exn.mk Exn.OSError "Connection refused")
  | Some _ => Ok 1%nat
  end.

(** A file the default configuration cannot decode. *)
Definition latin1_only (kw : kwargs) : result nat :=
  match kw with
  | None => Raise (Exn.mk Exn.UnicodeDecodeError "'utf-8' codec can't decode byte")
  | Some _ => Ok 1%nat
  end.

End DataFetching.

(** ** The vocabulary of the statements *)

(** [m] holds, for every value, the number of its occurrences in [vals],
    and no key for a value that does not occur. *)
Definition counts_of (vals : list string) (m : gmap string nat) : Prop :=
  forall d,
    m !! d =
      match count_occ string_dec vals d with
      | O => None
      | S c => Some (S c)
      end.

(** The sum of the counts [vc] holds for [d]. *)
Definition weight (vc : list (string * nat)) (d : string) : nat :=
  sum_list (map snd (List.filter (fun dc => bool_decide (fst dc = d)) vc)).

(** The sum of the counts of a table. *)
Definition total (t : daily_counts_table) : nat := sum_list_with snd t.

(** The date column as the aggregation reads it, and its values that are not
    missing. *)
Definition date_of (i : nat) (r : list string) : option string :=
  string_value (cell i r).

Definition dates (i : nat) (src : csv) : list string :=
  omap id (map (date_of i) (rows src)).

(** The lines [to_csv] writes for the rows of a frame. *)
Definition render (rs : list (list scalar)) : list (list string) :=
  map (map to_csv_cell) rs.

(** The rows the filter keeps, over all chunks, in the order of the
    chunks. *)
Definition selected (i : nat) (target_date : string) (chunks : list frame)
  : list (list scalar) :=
  concat (map (fun chunk => frame_rows (select_rows i target_date chunk)) chunks).

(** The chunks of the extraction pass of a file. *)
Definition frames (src : csv) (chunksize : Z) : list frame :=
  map (parse_chunk (columns src)) (iter_chunks (Z.to_nat chunksize) (rows src)).

Definition str_le (s1 s2 : string) : Prop := String.leb s1 s2 = true.


(** The number of records of [src] whose date is not missing. *)
Definition count_dated (i : nat) (src : csv) : nat :=
  length (List.filter (fun r => bool_decide (is_Some (date_of i r))) (rows src)).


(** The path [resolve_paths] looks at: the one given, or else the candidate
    under [data/raw]. *)
Definition requested_csv (e : env) (user_csv : option string) : string :=
  match truthy user_csv with
  | Some csv_path => csv_path
  | None =>
      path_join (path_join (path_join (project_root e) "data") "raw")
                "itineraries.csv"
  end.

(** A source as the readers are given for: header labels distinct and not
    empty (pandas renames the others), no record longer than the header
    (pandas takes surplus leading cells as an index, or raises
    [ParserError]). *)
Definition well_formed (src : csv) : Prop :=
  NoDup (columns src) /\
  Forall (fun c => c <> "") (columns src) /\
  Forall (fun r => (length r <= length (columns src))%nat) (rows src).

#[global] Instance well_formed_dec src : Decision (well_formed src).
Proof. unfold well_formed. apply _. Defined.




(** Strictly earlier, by the date. *)
Definition date_lt (x y : string * nat) : Prop :=
  String.ltb (fst x) (fst y) = true.

(** A file that no configuration of the loader can parse. *)
Definition unparsable (kw : DataFetching.kwargs) : result nat :=
  Raise (Exn.mk Exn.ParserError "Error tokenizing data").

(** ** Sample inputs *)

(** The scenario of the specification: six records over three days. *)
Definition demo_csv : csv :=
  mk_csv ["legId"; "flightDate"]
         [ ["a"; "2022-01-02"]; ["b"; "2022-01-01"]; ["c"; "2022-01-02"];
           ["d"; "2022-01-03"]; ["e"; "2022-01-01"]; ["f"; "2022-01-02"] ].

Definition demo_fs : filesystem := {[ "/data/raw/itineraries.csv" := demo_csv ]}.

(** A file with a record whose date cell is empty. *)
Definition undated_csv : csv :=
  mk_csv ["flightDate"; "fare"] [ ["2022-01-01"; "99.5"]; [""; "120.0"] ].


(** A source whose dates are written as numbers. *)
Definition numeric_dates_csv : csv :=
  mk_csv ["flightDate"; "fare"]
         [ ["20220101"; "99.5"]; ["20220101"; "120.0"]; ["20220102"; "80.0"] ].

Definition numeric_dates_fs : filesystem := {[ "/in.csv" := numeric_dates_csv ]}.

(** A source in which one chunk of the date column reads as int64 and the
    next as text. *)
Definition mixed_dates_csv : csv :=
  mk_csv ["legId"; "flightDate"]
         [ ["a"; "20220101"]; ["b"; "20220101"];
           ["c"; "2022-01-02"]; ["d"; "20220101"] ].

Definition mixed_dates_fs : filesystem := {[ "/in.csv" := mixed_dates_csv ]}.

(** * Properties *)

(** Well-formedness is decided by computation. *)
Lemma well_formed_check src : bool_decide (well_formed src) = true -> well_formed src.
Proof. apply bool_decide_eq_true_1. Qed.

(** ** Chunking *)

Section Chunks.
Context {A : Type}.
Implicit Types (l : list A) (n fuel : nat).

Lemma concat_chunks_aux fuel n l :
  (1 <= n)%nat -> (length l <= fuel)%nat -> concat (chunks_aux fuel n l) = l.
Proof.
  intros Hn. revert l.
  induction fuel as [|fuel IH]; intros l Hl.
  - destruct l; [reflexivity | simpl in Hl; lia].
  - destruct l as [|x l]; [reflexivity|].
    cbn [chunks_aux concat].
    rewrite IH; [apply take_drop|].
    rewrite length_drop. simpl in Hl. simpl. lia.
Qed.

(** The fuel of [chunks_of] is enough: the chunks put end to end are the
    list. *)
Lemma concat_chunks_of n l : (1 <= n)%nat -> concat (chunks_of n l) = l.
Proof. intros Hn. apply concat_chunks_aux; [assumption | lia]. Qed.

Lemma concat_iter_chunks n l : (1 <= n)%nat -> concat (iter_chunks n l) = l.
Proof.
  intros Hn. destruct l as [|x l]; [reflexivity|].
  apply concat_chunks_of, Hn.
Qed.

(** Whatever the size, a chunk holds records of the list only. *)
Lemma in_chunks_aux fuel n l c x :
  In c (chunks_aux fuel n l) -> In x c -> In x l.
Proof.
  revert l. induction fuel as [|fuel IH]; intros l Hc Hx; [destruct Hc|].
  destruct l as [|y l]; [destruct Hc|].
  cbn [chunks_aux] in Hc. destruct Hc as [<- | Hc].
  - apply list_elem_of_In. apply (subseteq_take n). apply list_elem_of_In, Hx.
  - apply list_elem_of_In. apply (subseteq_drop n).
    apply list_elem_of_In. eapply IH; eassumption.
Qed.

Lemma in_chunks_of n l c x : In c (chunks_of n l) -> In x c -> In x l.
Proof. apply in_chunks_aux. Qed.

Lemma in_iter_chunks n l c x : In c (iter_chunks n l) -> In x c -> In x l.
Proof.
  destruct l as [|y l]; [|apply in_chunks_of].
  intros [<- | []] [].
Qed.
End Chunks.

(** ** The counts dict *)

Lemma weight_not_in vc d : d ∉ map fst vc -> weight vc d = 0%nat.
Proof.
  unfold weight. induction vc as [|[d' c] vc IH]; intros Hd; [reflexivity|].
  cbn [map fst] in Hd. apply not_elem_of_cons in Hd as [Hne Hd].
  cbn [List.filter fst].
  rewrite bool_decide_eq_false_2 by congruence. apply IH, Hd.
Qed.

(** What the loop over [vc.items()] leaves under a key; nothing in it
    depends on the order of the pairs. *)
Lemma merge_counts_lookup vc (m : gmap string nat) d :
  merge_counts m vc !! d =
    if decide (d ∈ map fst vc)
    then Some (default 0 (m !! d) + weight vc d)%nat
    else m !! d.
Proof.
  revert m. induction vc as [|[d' c] vc IH]; intros m.
  - reflexivity.
  - cbn [merge_counts foldl]. fold (merge_counts (add_count m (d', c)) vc).
    rewrite IH. unfold add_count, weight. cbn [fst snd map List.filter].
    destruct (decide (d' = d)) as [->|Hne].
    + rewrite lookup_insert_eq, (bool_decide_eq_true_2 (d = d)) by reflexivity.
      rewrite (decide_True (P := d ∈ d :: _)) by (apply elem_of_cons; left; reflexivity).
      cbn [map snd sum_list_with default id].
      case_decide as Hin; f_equal; [cbn; lia|].
      apply weight_not_in in Hin. unfold weight in Hin. cbn. lia.
    + rewrite lookup_insert_ne by assumption.
      rewrite (bool_decide_eq_false_2 (d' = d)) by assumption.
      destruct (decide (d ∈ map fst vc)) as [Hin|Hin].
      * rewrite decide_True by (apply elem_of_cons; right; exact Hin). reflexivity.
      * rewrite decide_False; [reflexivity|].
        intros [?|?]%elem_of_cons; [congruence | contradiction].
Qed.

(** [value_counts] names every value once, with its number of
    occurrences. *)
Lemma weight_keyed (f : string -> nat) l d :
  NoDup l ->
  weight (map (fun x => (x, f x)) l) d = if decide (d ∈ l) then f d else 0%nat.
Proof.
  unfold weight. induction 1 as [|x l Hx Hl IH]; [reflexivity|].
  cbn [map List.filter fst].
  destruct (decide (x = d)) as [->|Hne].
  - rewrite bool_decide_eq_true_2 by reflexivity.
    rewrite decide_True by (apply elem_of_cons; left; reflexivity).
    cbn [map snd]. change (sum_list (f d :: ?t)) with (f d + sum_list t)%nat.
    rewrite IH, decide_False by assumption. lia.
  - rewrite bool_decide_eq_false_2 by assumption. rewrite IH.
    destruct (decide (d ∈ l)) as [Hin|Hin].
    + rewrite decide_True by (apply elem_of_cons; right; exact Hin). reflexivity.
    + rewrite decide_False; [reflexivity|].
      intros [?|?]%elem_of_cons; [congruence | contradiction].
Qed.

Lemma value_counts_keys col d :
  d ∈ map fst (value_counts col) <-> d ∈ omap id col.
Proof.
  unfold value_counts. rewrite map_map. cbn [fst]. rewrite map_id.
  apply elem_of_remove_dups.
Qed.

Lemma value_counts_weight col d :
  weight (value_counts col) d = count_occ string_dec (omap id col) d.
Proof.
  unfold value_counts. rewrite weight_keyed by apply NoDup_remove_dups.
  case_decide as Hin; [reflexivity|].
  rewrite elem_of_remove_dups in Hin.
  symmetry. apply count_occ_not_In. rewrite <- list_elem_of_In. exact Hin.
Qed.

(** One chunk more: the dict counts the values read so far. *)
Lemma merge_counts_value_counts vals m col :
  counts_of vals m ->
  counts_of (vals ++ omap id col) (merge_counts m (value_counts col)).
Proof.
  intros Hm d. rewrite merge_counts_lookup, count_occ_app, value_counts_weight.
  rewrite (Hm d).
  destruct (decide (d ∈ map fst (value_counts col))) as [Hin|Hin];
    rewrite value_counts_keys in Hin.
  - apply list_elem_of_In, (count_occ_In string_dec) in Hin.
    destruct (count_occ string_dec vals d), (count_occ string_dec (omap id col) d);
      cbn; try lia; f_equal; lia.
  - rewrite list_elem_of_In in Hin. apply (count_occ_not_In string_dec) in Hin.
    rewrite Hin, Nat.add_0_r. reflexivity.
Qed.

Lemma counts_of_chunks chunks vals m :
  counts_of vals m ->
  counts_of (vals ++ omap id (concat chunks))
    (foldl (fun counts chunk => merge_counts counts (value_counts chunk)) m chunks).
Proof.
  revert vals m. induction chunks as [|c chunks IH]; intros vals m Hm.
  - cbn. rewrite app_nil_r. exact Hm.
  - cbn [foldl concat]. rewrite omap_app, app_assoc.
    apply IH, merge_counts_value_counts, Hm.
Qed.

Lemma counts_of_empty : counts_of [] ∅.
Proof. intros d. apply lookup_empty. Qed.

(** The values determine the dict. *)
Lemma counts_of_unique vals m1 m2 :
  counts_of vals m1 -> counts_of vals m2 -> m1 = m2.
Proof. intros H1 H2. apply map_eq. intros d. rewrite (H1 d), (H2 d). reflexivity. Qed.

(** ** The daily count table *)

Lemma total_delete (m : gmap string nat) d c :
  m !! d = Some c ->
  total (map_to_list m) = (c + total (map_to_list (delete d m)))%nat.
Proof.
  intros Hd. unfold total.
  rewrite <- (map_to_list_delete m d c Hd). reflexivity.
Qed.

Lemma counts_of_total vals : forall m,
  counts_of vals m -> total (map_to_list m) = length vals.
Proof.
  induction vals as [|v vals IH]; intros m Hm.
  - assert (m = ∅) as -> by (apply map_empty; intros d; apply (Hm d)).
    rewrite map_to_list_empty. reflexivity.
  - pose proof (Hm v) as Hv. rewrite count_occ_cons_eq in Hv by reflexivity.
    rewrite (total_delete m v _ Hv).
    destruct (count_occ string_dec vals v) as [|c] eqn:Hc.
    + rewrite (IH (delete v m)); [reflexivity|].
      intros d. destruct (decide (v = d)) as [<-|Hne].
      * rewrite lookup_delete_eq, Hc. reflexivity.
      * rewrite lookup_delete_ne, (Hm d), count_occ_cons_neq by assumption.
        reflexivity.
    + assert (counts_of vals (<[v := S c]> m)) as Hm'.
      { intros d. destruct (decide (v = d)) as [<-|Hne].
        - rewrite lookup_insert_eq, Hc. reflexivity.
        - rewrite lookup_insert_ne, (Hm d), count_occ_cons_neq by assumption.
          reflexivity. }
      apply IH in Hm'.
      rewrite (total_delete _ v (S c)) in Hm' by apply lookup_insert_eq.
      rewrite delete_insert_eq in Hm'. cbn [length]. lia.
Qed.

Lemma total_sorted_items m : total (sorted_items m) = total (map_to_list m).
Proof.
  unfold total, sorted_items. rewrite merge_sort_Permutation. reflexivity.
Qed.


(** The table [compute_daily_counts] returns on a file that holds the
    column: the sorted items of the dict that counts the dates of the file,
    whatever the chunk size. *)
Lemma compute_daily_counts_counts fs csv_path date_column chunksize src i :
  fs !! csv_path = Some src ->
  index_of date_column (columns src) = Some i ->
  (1 <= chunksize)%Z ->
  exists m, counts_of (dates i src) m /\
    compute_daily_counts fs csv_path date_column chunksize = Ok (sorted_items m).
Proof.
  intros Hsrc Hi Hn.
  unfold compute_daily_counts, read_csv_usecols, open_csv.
  destruct (Z.ltb_spec chunksize 1) as [|_]; [lia|].
  rewrite Hsrc. destruct (columns src) as [|c cols] eqn:Hcols; [discriminate Hi|].
  cbn [mbind result_bind]. rewrite Hcols, Hi. cbn [mbind result_bind].
  eexists; split; [|reflexivity].
  pose proof (counts_of_chunks
    (iter_chunks (Z.to_nat chunksize) (map (fun r => string_value (cell i r)) (rows src)))
    [] ∅ counts_of_empty) as H.
  rewrite concat_iter_chunks in H by lia. exact H.
Qed.

(** ** Extraction *)

Lemma index_of_lt name cols i : index_of name cols = Some i -> (i < length cols)%nat.
Proof.
  revert i. induction cols as [|c cols IH]; intros i; cbn; [discriminate|].
  destruct (String.eqb c name).
  - intros [= <-]. lia.
  - destruct (index_of name cols) as [j|]; cbn; [|discriminate].
    intros [= <-]. specialize (IH j eq_refl). lia.
Qed.

Lemma index_of_lookup name cols i : index_of name cols = Some i -> cols !! i = Some name.
Proof.
  revert i. induction cols as [|c cols IH]; intros i; cbn; [discriminate|].
  destruct (String.eqb_spec c name) as [->|_].
  - intros [= <-]. reflexivity.
  - destruct (index_of name cols) as [j|]; cbn; [|discriminate].
    intros [= <-]. apply IH. reflexivity.
Qed.

Lemma index_of_None name cols : index_of name cols = None <-> ~ In name cols.
Proof.
  induction cols as [|c cols IH]; cbn; [tauto|].
  destruct (String.eqb_spec c name) as [->|Hne].
  - split; [discriminate | tauto].
  - destruct (index_of name cols); cbn.
    + split; [discriminate|]. intros H.
      assert (Some n = None) by (apply IH; tauto). discriminate.
    + split; [|reflexivity]. intros _ [?|?]; [congruence|]. apply IH; auto.
Qed.

(** Only a cell read as text, and not missing, can equal the target. *)
Lemma eq_str_convert dt raw target :
  eq_str (convert dt raw) target = true ->
  convert dt raw = Str target /\ string_value raw = Some target.
Proof.
  unfold convert, string_value. destruct (is_na raw); [discriminate|].
  destruct dt; cbn; try discriminate.
  intros ->%String.eqb_eq. split; reflexivity.
Qed.

Lemma parse_block_lookup cols block pr i :
  In pr (parse_block cols block) -> (i < length cols)%nat ->
  exists r dt, In r block /\ pr !! i = Some (convert dt (cell i r)).
Proof.
  unfold parse_block. intros (r & <- & Hr)%in_map_iff Hi.
  exists r, (infer_dtype (map (cell i) block)). split; [exact Hr|].
  rewrite list_lookup_imap.
  assert (seq 0 (length cols) !! i = Some i) as Hseq
    by (rewrite lookup_seq; split; [reflexivity | exact Hi]).
  change (map ?f (seq 0 (length cols))) with (f <$> seq 0 (length cols)).
  rewrite list_lookup_fmap, Hseq. reflexivity.
Qed.

(** A row the filter keeps was read from a record whose date is the
    target, and holds the target as text in the date column. *)
Lemma select_rows_source cols chunk i target pr :
  (i < length cols)%nat ->
  In pr (frame_rows (select_rows i target (parse_chunk cols chunk))) ->
  pr !! i = Some (Str target) /\
  exists r, In r chunk /\ date_of i r = Some target.
Proof.
  intros Hi. cbn [select_rows frame_rows parse_chunk].
  intros [Hpr Heq]%filter_In.
  apply in_concat in Hpr as (prs & Hprs & Hpr).
  apply in_map_iff in Hprs as (block & <- & Hblock).
  destruct (parse_block_lookup _ _ _ _ Hpr Hi) as (r & dt & Hr & Hlk).
  rewrite Hlk in Heq |- *. cbn [default] in Heq.
  apply eq_str_convert in Heq as [-> Hraw].
  split; [reflexivity|]. exists r. split; [|exact Hraw].
  eapply in_chunks_of; eassumption.
Qed.

Lemma selected_source cols chunks i target pr :
  (i < length cols)%nat ->
  In pr (selected i target (map (parse_chunk cols) chunks)) ->
  pr !! i = Some (Str target) /\
  exists chunk r, In chunk chunks /\ In r chunk /\ date_of i r = Some target.
Proof.
  intros Hi. unfold selected. rewrite map_map.
  intros (prs & Hprs & Hpr)%in_concat.
  apply in_map_iff in Hprs as (chunk & <- & Hchunk).
  destruct (select_rows_source _ _ _ _ _ Hi Hpr) as (Hlk & r & Hr & Hd).
  split; [exact Hlk|]. exists chunk, r. auto.
Qed.

(** The loop once the file is written: every later chunk is appended. *)
Lemma write_chunks_append out col target cols i chunks :
  Forall (fun chunk => frame_columns chunk = cols) chunks ->
  index_of col cols = Some i ->
  forall fs old, fs !! out = Some old ->
  write_chunks out col target chunks false fs =
    (<[ out := mk_csv (columns old) (rows old ++ render (selected i target chunks)) ]> fs,
     Ok tt).
Proof.
  intros Hcols Hi. induction Hcols as [|chunk chunks Hc _ IH]; intros fs old Hold.
  - cbn. rewrite app_nil_r. destruct old as [c r]. cbn.
    rewrite insert_id by exact Hold. reflexivity.
  - cbn [write_chunks]. rewrite Hc, Hi.
    unfold selected. cbn [map concat]. fold (selected i target chunks).
    destruct (frame_rows (select_rows i target chunk)) as [|pr prs] eqn:Hsel.
    + rewrite (IH fs old Hold). reflexivity.
    + unfold to_csv. rewrite Hold, Hsel.
      erewrite IH by apply lookup_insert_eq.
      rewrite insert_insert_eq. cbn [columns rows].
      unfold render. rewrite map_app, app_assoc. reflexivity.
Qed.

(** The whole loop: nothing is written while no row is kept; the first
    chunk with a kept row writes the header and its rows, the later ones
    append. *)
Lemma write_chunks_first out col target cols i chunks fs :
  Forall (fun chunk => frame_columns chunk = cols) chunks ->
  index_of col cols = Some i ->
  write_chunks out col target chunks true fs =
    (match selected i target chunks with
     | [] => fs
     | _ :: _ => <[ out := mk_csv cols (render (selected i target chunks)) ]> fs
     end, Ok tt).
Proof.
  intros Hcols Hi. induction Hcols as [|chunk chunks Hc Hcs IH].
  - reflexivity.
  - cbn [write_chunks]. rewrite Hc, Hi.
    unfold selected. cbn [map concat]. fold (selected i target chunks).
    destruct (frame_rows (select_rows i target chunk)) as [|pr prs] eqn:Hsel.
    + exact IH.
    + unfold to_csv. rewrite Hsel.
      erewrite (write_chunks_append out col target cols i chunks Hcs Hi)
        by apply lookup_insert_eq.
      rewrite insert_insert_eq. cbn [columns rows app select_rows frame_columns].
      rewrite Hc. unfold render. cbn [map]. rewrite map_app. reflexivity.
Qed.

Lemma write_truncated_day_selected fs csv_path out col target chunksize src i :
  fs !! csv_path = Some src ->
  index_of col (columns src) = Some i ->
  (1 <= chunksize)%Z ->
  write_truncated_day fs csv_path out col target chunksize =
    (match selected i target (frames src chunksize) with
     | [] => fs
     | _ :: _ =>
         <[ out := mk_csv (columns src)
                     (render (selected i target (frames src chunksize))) ]> fs
     end, Ok tt).
Proof.
  intros Hsrc Hi Hn. unfold write_truncated_day, read_csv, open_csv.
  destruct (Z.ltb_spec chunksize 1) as [|_]; [lia|].
  rewrite Hsrc. destruct (columns src) as [|c cols] eqn:Hcols; [discriminate Hi|].
  cbn [mbind result_bind]. rewrite Hcols.
  rewrite (write_chunks_first out col target (c :: cols) i); [|clear|exact Hi].
  - unfold frames. rewrite Hcols. reflexivity.
  - apply Forall_forall. intros ch (x & <- & _)%list_elem_of_In%in_map_iff.
    reflexivity.
Qed.

(** ** The order of the dates *)

#[global] Instance date_le_total : Total date_le.
Proof. intros x y. apply String.leb_total. Qed.

Lemma ascii_compare_N a b :
  Ascii.compare a b = N.compare (N_of_ascii a) (N_of_ascii b).
Proof. reflexivity. Qed.

Lemma string_compare_refl s : String.compare s s = Eq.
Proof.
  induction s as [|a s IH]; [reflexivity|].
  cbn. rewrite ascii_compare_N, N.compare_refl. exact IH.
Qed.

Lemma string_compare_trans c s1 : forall s2 s3,
  String.compare s1 s2 = c -> String.compare s2 s3 = c -> String.compare s1 s3 = c.
Proof.
  induction s1 as [|a1 s1 IH]; intros [|a2 s2] [|a3 s3]; cbn; try congruence.
  rewrite !ascii_compare_N.
  destruct (N.compare_spec (N_of_ascii a1) (N_of_ascii a2)) as [E12|L12|L12];
  destruct (N.compare_spec (N_of_ascii a2) (N_of_ascii a3)) as [E23|L23|L23];
  intros H1 H2; try congruence.
  - rewrite E12, E23, N.compare_refl. eapply IH; eassumption.
  - rewrite E12. apply N.compare_lt_iff in L23. rewrite L23. exact H2.
  - rewrite E12. apply N.compare_gt_iff in L23. rewrite L23. exact H2.
  - rewrite <- E23. apply N.compare_lt_iff in L12. rewrite L12. exact H1.
  - assert (N_of_ascii a1 < N_of_ascii a3)%N as L by lia.
    apply N.compare_lt_iff in L. rewrite L. exact H1.
  - rewrite <- E23. apply N.compare_gt_iff in L12. rewrite L12. exact H1.
  - assert (N_of_ascii a3 < N_of_ascii a1)%N as L by lia.
    apply N.compare_gt_iff in L. rewrite L. exact H1.
Qed.

#[global] Instance str_le_trans : Transitive str_le.
Proof.
  intros s1 s2 s3. unfold str_le, String.leb.
  destruct (String.compare s1 s2) eqn:E12; [| |discriminate];
  destruct (String.compare s2 s3) eqn:E23; try discriminate; intros _ _.
  - apply String.compare_eq_iff in E12 as ->. rewrite E23. reflexivity.
  - apply String.compare_eq_iff in E12 as ->. rewrite E23. reflexivity.
  - apply String.compare_eq_iff in E23 as <-. rewrite E12. reflexivity.
  - rewrite (string_compare_trans Lt _ _ _ E12 E23). reflexivity.
Qed.

#[global] Instance str_le_antisym : AntiSymm (=) str_le.
Proof. intros s1 s2. apply String.leb_antisym. Qed.

(** The dates of a table sorted by date are the same, whichever way the
    rows with equal dates are put. *)
Lemma sorted_dates_unique (l1 l2 : daily_counts_table) :
  l1 ≡ₚ l2 -> Sorted date_le l1 -> Sorted date_le l2 -> map fst l1 = map fst l2.
Proof.
  intros Hp H1 H2.
  apply (Sorted_unique str_le).
  - apply (Sorted_fmap fst date_le str_le); [|exact H1]. intros x y H. exact H.
  - apply (Sorted_fmap fst date_le str_le); [|exact H2]. intros x y H. exact H.
  - apply (fmap_Permutation fst), Hp.
Qed.

(** ** C4 *)

(** C4. For every non-empty daily count table, of a date column that is
    not itself labelled ["count"], [get_middle_date] returns the date at
    the zero-based index [length / 2] (floor division) of the table sorted
    ascending by date, whichever sorted arrangement of the table is taken;
    for the table [(2022-01-01,2),(2022-01-02,3),(2022-01-03,1)] that is
    2022-01-02. *)
Theorem get_middle_date_is_midpoint (daily_counts : daily_counts_table)
    (date_column : string) :
  daily_counts <> [] ->
  date_column <> "count" ->
  (forall ordered,
     ordered ≡ₚ daily_counts -> Sorted date_le ordered ->
     exists row,
       ordered !! (length daily_counts / 2)%nat = Some row /\
       get_middle_date daily_counts date_column = Ok (fst row)) /\
  get_middle_date
    [("2022-01-01", 2%nat); ("2022-01-02", 3%nat); ("2022-01-03", 1%nat)]
    "flightDate" = Ok "2022-01-02".
Proof.
  intros Hne Hcol. split; [|vm_compute; reflexivity].
  intros ordered Hperm Hsorted.
  pose proof (merge_sort_Permutation date_le daily_counts) as Hms.
  assert (length ordered = length daily_counts) as Hlen
    by (rewrite Hperm; reflexivity).
  assert (length daily_counts / 2 < length ordered)%nat as Hmid.
  { rewrite Hlen. destruct daily_counts; [congruence|].
    apply Nat.div_lt; cbn; lia. }
  destruct (lookup_lt_is_Some_2 _ _ Hmid) as [row Hrow].
  exists row. split; [exact Hrow|].
  unfold get_middle_date. rewrite (proj2 (String.eqb_neq _ _) Hcol).
  assert (map fst (merge_sort date_le daily_counts) = map fst ordered) as Hkeys.
  { apply sorted_dates_unique.
    - rewrite Hms, Hperm. reflexivity.
    - apply Sorted_merge_sort, _.
    - exact Hsorted. }
  rewrite Hms at 1.
  assert ((fst <$> merge_sort date_le daily_counts) !! (length daily_counts / 2)%nat
          = Some (fst row)) as Hlk.
  { change (fst <$> ?l) with (map fst l). rewrite Hkeys.
    change (map fst ordered) with (fst <$> ordered).
    rewrite list_lookup_fmap, Hrow. reflexivity. }
  rewrite list_lookup_fmap in Hlk.
  destruct (merge_sort date_le daily_counts !! (length daily_counts / 2)%nat)
    as [row'|]; [|discriminate].
  cbn in Hlk. congruence.
Qed.

Lemma get_middle_date_is_midpoint_witness :
  [("2022-01-02", 3%nat); ("2022-01-01", 2%nat)] <> [] /\
  "flightDate" <> "count" /\
  ((forall ordered,
     ordered ≡ₚ [("2022-01-02", 3%nat); ("2022-01-01", 2%nat)] ->
     Sorted date_le ordered ->
     exists row,
       ordered !! 1%nat = Some row /\
       get_middle_date [("2022-01-02", 3%nat); ("2022-01-01", 2%nat)] "flightDate"
       = Ok (fst row)) /\
  get_middle_date
    [("2022-01-01", 2%nat); ("2022-01-02", 3%nat); ("2022-01-03", 1%nat)]
    "flightDate" = Ok "2022-01-02").
Proof.
  split; [discriminate|]. split; [discriminate|].
  apply (get_middle_date_is_midpoint
           [("2022-01-02", 3%nat); ("2022-01-01", 2%nat)] "flightDate");
    discriminate.
Defined.

(** ** Aggregation: C2, C5, C10 *)

Lemma length_dates i src : length (dates i src) = count_dated i src.
Proof.
  unfold dates, count_dated. induction (rows src) as [|r rs IH]; [reflexivity|].
  cbn [map List.filter]. destruct (date_of i r) as [d|]; cbn [omap list_omap id].
  - rewrite bool_decide_eq_true_2 by (eexists; reflexivity).
    cbn [length]. rewrite <- IH. reflexivity.
  - rewrite bool_decide_eq_false_2 by (intros [? [=]]). exact IH.
Qed.


(** C2. For every source CSV and date column and any two chunk sizes of at
    least 1, dividing the number of rows or not, [compute_daily_counts]
    returns the same daily count table (and the same error, where it
    fails): the chunking does not change the aggregation. *)
Theorem compute_daily_counts_chunksize fs csv_path date_column (n1 n2 : Z) :
  (1 <= n1)%Z -> (1 <= n2)%Z ->
  compute_daily_counts fs csv_path date_column n1 =
  compute_daily_counts fs csv_path date_column n2.
Proof.
  intros H1 H2.
  destruct (fs !! csv_path) as [src|] eqn:Hsrc;
    [destruct (index_of date_column (columns src)) as [i|] eqn:Hi|].
  - destruct (compute_daily_counts_counts _ _ _ n1 _ _ Hsrc Hi H1) as (m1 & Hm1 & ->).
    destruct (compute_daily_counts_counts _ _ _ n2 _ _ Hsrc Hi H2) as (m2 & Hm2 & ->).
    rewrite (counts_of_unique _ _ _ Hm1 Hm2). reflexivity.
  - unfold compute_daily_counts, read_csv_usecols, open_csv.
    destruct (Z.ltb_spec n1 1); [lia|]. destruct (Z.ltb_spec n2 1); [lia|].
    rewrite Hsrc. destruct (columns src) eqn:Hcols; [reflexivity|].
    cbn [mbind result_bind]. rewrite Hcols, Hi. reflexivity.
  - unfold compute_daily_counts, read_csv_usecols, open_csv.
    destruct (Z.ltb_spec n1 1); [lia|]. destruct (Z.ltb_spec n2 1); [lia|].
    rewrite Hsrc. reflexivity.
Qed.

Lemma compute_daily_counts_chunksize_witness :
  compute_daily_counts demo_fs "/data/raw/itineraries.csv" "flightDate" 2 =
  compute_daily_counts demo_fs "/data/raw/itineraries.csv" "flightDate" 4.
Proof. apply compute_daily_counts_chunksize; lia. Defined.

(** C5, as stated, fails: on a file of two records, one of them without a
    date, the counts sum to 1. *)
Lemma daily_counts_sum_undated :
  compute_daily_counts {[ "/in.csv" := undated_csv ]} "/in.csv" "flightDate" 1
    = Ok [("2022-01-01", 1%nat)] /\
  total [("2022-01-01", 1%nat)] <> length (rows undated_csv).
Proof. split; [vm_compute; reflexivity | vm_compute; discriminate]. Qed.

(** C5, amended. For every well-formed source CSV (distinct, non-empty
    header labels, no record longer than the header) that holds the date
    column and in which no record's date is missing, and every chunk size of
    at least 1, [compute_daily_counts] returns a table whose counts sum to
    the number of data records of the source. *)
Theorem daily_counts_sum_all_dated fs csv_path date_column chunksize src i :
  fs !! csv_path = Some src ->
  well_formed src ->
  index_of date_column (columns src) = Some i ->
  (1 <= chunksize)%Z ->
  (forall r, In r (rows src) -> is_Some (date_of i r)) ->
  exists t,
    compute_daily_counts fs csv_path date_column chunksize = Ok t /\
    total t = length (rows src).
Proof.
  intros Hsrc _ Hi Hn Hdated.
  destruct (compute_daily_counts_counts _ _ _ _ _ _ Hsrc Hi Hn) as (m & Hm & ->).
  eexists; split; [reflexivity|].
  rewrite total_sorted_items, (counts_of_total _ _ Hm), length_dates.
  unfold count_dated. clear - Hdated.
  induction (rows src) as [|r rs IH]; [reflexivity|].
  cbn [List.filter]. rewrite bool_decide_eq_true_2 by (apply Hdated; left; reflexivity).
  cbn [length]. rewrite IH; [reflexivity|]. intros r' Hr'. apply Hdated. right. exact Hr'.
Qed.

Lemma daily_counts_sum_all_dated_witness :
  exists t,
    compute_daily_counts demo_fs "/data/raw/itineraries.csv" "flightDate" 4 = Ok t /\
    total t = length (rows demo_csv).
Proof.
  apply (daily_counts_sum_all_dated demo_fs _ _ 4 demo_csv 1%nat).
  - reflexivity.
  - apply well_formed_check. vm_compute. reflexivity.
  - reflexivity.
  - lia.
  - intros r Hr. cbn in Hr.
    repeat (destruct Hr as [<- | Hr]; [eexists; reflexivity|]). destruct Hr.
Defined.




(** ** Extraction: C7, C8 *)

(** C7. For every well-formed source CSV (distinct, non-empty header
    labels, no record longer than the header) that holds the date column,
    and every target date that no record's date equals,
    [write_truncated_day] leaves the filesystem as it was, so creates no
    output file, and returns without an error. *)
Theorem write_truncated_day_no_match fs csv_path output_path date_column
    target_date chunksize src i :
  fs !! csv_path = Some src ->
  well_formed src ->
  index_of date_column (columns src) = Some i ->
  (1 <= chunksize)%Z ->
  (forall r, In r (rows src) -> date_of i r <> Some target_date) ->
  write_truncated_day fs csv_path output_path date_column target_date chunksize
    = (fs, Ok tt).
Proof.
  intros Hsrc _ Hi Hn Hnone.
  rewrite (write_truncated_day_selected _ _ _ _ _ _ _ _ Hsrc Hi Hn).
  destruct (selected i target_date (frames src chunksize)) as [|pr prs] eqn:Hsel;
    [reflexivity|exfalso].
  assert (In pr (selected i target_date (frames src chunksize))) as Hpr
    by (rewrite Hsel; left; reflexivity).
  apply selected_source in Hpr as (_ & chunk & r & Hchunk & Hr & Hd);
    [|eapply index_of_lt, Hi].
  apply (Hnone r); [|exact Hd]. eapply in_iter_chunks; eassumption.
Qed.

Lemma write_truncated_day_no_match_witness :
  write_truncated_day demo_fs "/data/raw/itineraries.csv" "/out.csv" "flightDate"
    "1999-12-31" 4 = (demo_fs, Ok tt) /\
  demo_fs !! "/out.csv" = None.
Proof.
  split; [|reflexivity].
  apply (write_truncated_day_no_match demo_fs _ _ _ _ 4 demo_csv 1%nat).
  - reflexivity.
  - apply well_formed_check. vm_compute. reflexivity.
  - reflexivity.
  - lia.
  - intros r Hr. cbn in Hr.
    repeat (destruct Hr as [<- | Hr]; [vm_compute; discriminate|]). destruct Hr.
Defined.

(** C8. If the date column is not in the header of a well-formed source CSV
    (distinct, non-empty header labels, no record longer than the header),
    the read of [compute_daily_counts], which restricts the columns, fails
    when the reader is built, with a [ValueError] (that of pandas for a
    column that is not found), and so does [compute_daily_counts];
    [write_truncated_day] on the same source fails with its own [ValueError]
    for the missing column, and writes nothing. *)
Theorem missing_date_column fs csv_path output_path date_column target_date
    chunksize src :
  fs !! csv_path = Some src ->
  well_formed src ->
  columns src <> [] ->
  ~ In date_column (columns src) ->
  (1 <= chunksize)%Z ->
  raises (read_csv_usecols fs csv_path date_column chunksize) Exn.ValueError /\
  raises (compute_daily_counts fs csv_path date_column chunksize) Exn.ValueError /\
  write_truncated_day fs csv_path output_path date_column target_date chunksize =
    (fs, raise Exn.ValueError ("Column '" +:+ date_column +:+ "' not found in CSV.")).
Proof.
  intros Hsrc _ Hcols Hcol%index_of_None Hn.
  assert (exists m, read_csv_usecols fs csv_path date_column chunksize =
                    raise Exn.ValueError m) as [m Hread].
  { unfold read_csv_usecols, open_csv.
    destruct (Z.ltb_spec chunksize 1); [lia|]. rewrite Hsrc.
    destruct (columns src) eqn:E; [congruence|].
    cbn [mbind result_bind]. rewrite E, Hcol. eexists. reflexivity. }
  split; [exists m; exact Hread|]. split.
  - exists m. unfold compute_daily_counts. rewrite Hread. reflexivity.
  - unfold write_truncated_day, read_csv, open_csv.
    destruct (Z.ltb_spec chunksize 1); [lia|]. rewrite Hsrc.
    destruct (columns src) eqn:E; [congruence|].
    cbn [mbind result_bind]. rewrite E.
    destruct (rows src) as [|r rs]; cbn [iter_chunks map write_chunks parse_chunk frame_columns].
    + rewrite Hcol. reflexivity.
    + unfold chunks_of. cbn [length chunks_aux map write_chunks parse_chunk frame_columns].
      rewrite Hcol. reflexivity.
Qed.

Lemma missing_date_column_witness :
  raises (read_csv_usecols demo_fs "/data/raw/itineraries.csv" "searchDate" 2)
         Exn.ValueError /\
  raises (compute_daily_counts demo_fs "/data/raw/itineraries.csv" "searchDate" 2)
         Exn.ValueError /\
  write_truncated_day demo_fs "/data/raw/itineraries.csv" "/out.csv" "searchDate"
    "2022-01-02" 2 =
    (demo_fs, raise Exn.ValueError "Column 'searchDate' not found in CSV.").
Proof.
  apply (missing_date_column demo_fs "/data/raw/itineraries.csv" "/out.csv"
           "searchDate" "2022-01-02" 2 demo_csv).
  - reflexivity.
  - apply well_formed_check. vm_compute. reflexivity.
  - discriminate.
  - cbn. intros [H|[H|[]]]; discriminate H.
  - lia.
Defined.

(** ** The command line: C6 *)




(** ** The two passes against each other: C1, C3 *)

(** C1 fails on the code.  The aggregation reads the date column with
    [dtype="string"] and counts two records for 20220101; the extraction
    reads it without a dtype, so as int64, no cell of which equals the string
    "20220101": it writes no file at all. *)
Theorem count_and_output_disagree :
  compute_daily_counts numeric_dates_fs "/in.csv" "flightDate" 2
    = Ok [("20220101", 2%nat); ("20220102", 1%nat)] /\
  write_truncated_day numeric_dates_fs "/in.csv" "/out.csv" "flightDate" "20220101" 2
    = (numeric_dates_fs, Ok tt) /\
  numeric_dates_fs !! "/out.csv" = None.
Proof. repeat split; vm_compute; reflexivity. Qed.

(** C3 fails on the code.  Three records of the source carry the date
    "20220101"; with chunks of two records the first chunk reads as int64
    and gives no row, and the output holds the last record only. *)
Theorem output_misses_matching_rows :
  List.filter (fun r => String.eqb (cell 1 r) "20220101") (rows mixed_dates_csv)
    = [ ["a"; "20220101"]; ["b"; "20220101"]; ["d"; "20220101"] ] /\
  fst (write_truncated_day mixed_dates_fs "/in.csv" "/out.csv" "flightDate"
         "20220101" 2) !! "/out.csv"
    = Some (mk_csv ["legId"; "flightDate"] [ ["d"; "20220101"] ]).
Proof. split; vm_compute; reflexivity. Qed.

(** ** The dataset loader: C9 *)

Module DataFetchingFacts.
Import DataFetching.

(** C9, as stated, fails: the second attempt would succeed, but the error
    of the first is no [ValueError], so [load_dataset] ends with it. *)
Lemma load_dataset_stops_at_other_error :
  load_dataset nat flaky = Raise (Exn.mk Exn.OSError "Connection refused") /\
  load_dataset_spec nat flaky = Ok 1%nat.
Proof. split; reflexivity. Qed.

(** C9, amended. [load_dataset] tries its three configurations in order
    (default; latin-1; latin-1 with the python engine, no fixed separator
    and bad lines skipped).  Provided every attempt that fails does so with
    a [ValueError] (or an exception derived from it), it returns the result
    of the first attempt that succeeds, and when every attempt fails, each
    earlier failure gives way to the next attempt and the failure of the
    last attempt is raised.  A failure of any other class is raised at
    once: when the attempts before it failed with a [ValueError], it is the
    outcome of [load_dataset], whatever the later attempts would do. *)
Theorem load_dataset_ladder (DataFrame : Type)
    (dataset_load : kwargs -> result DataFrame) :
  attempts =
    [ None;
      Some [("encoding", Some "latin-1")];
      Some [("encoding", Some "latin-1"); ("engine", Some "python");
            ("sep", None); ("on_bad_lines", Some "skip")] ] /\
  ((forall kw err,
      In kw attempts -> dataset_load kw = Raise err ->
      Exn.is_ValueError err = true) ->
   load_dataset DataFrame dataset_load = load_dataset_spec DataFrame dataset_load /\
   load_dataset DataFrame dataset_load =
     match attempts with
     | [a1; a2; a3] =>
         match dataset_load a1 with
         | Ok df => Ok df
         | Raise _ =>
             match dataset_load a2 with
             | Ok df => Ok df
             | Raise _ => dataset_load a3
             end
         end
     | _ => load_dataset DataFrame dataset_load
     end) /\
  (forall before kw after err,
     attempts = before ++ kw :: after ->
     (forall k, In k before ->
        exists e, dataset_load k = Raise e /\ Exn.is_ValueError e = true) ->
     dataset_load kw = Raise err ->
     Exn.is_ValueError err = false ->
     forall other : kwargs -> result DataFrame,
       (forall k, In k (before ++ [kw]) -> other k = dataset_load k) ->
       load_dataset DataFrame other = Raise err).
Proof.
  split; [reflexivity|]. split.
  - intros Hve.
    assert (forall todo last_err,
              (forall kw, In kw todo -> In kw attempts) ->
              try_attempts DataFrame dataset_load todo last_err =
              ladder_spec DataFrame dataset_load todo last_err) as Heq.
    { induction todo as [|kw todo IH]; intros last_err Hin; [reflexivity|].
      cbn [try_attempts ladder_spec].
      destruct (dataset_load kw) as [df|err] eqn:Hkw; [reflexivity|].
      rewrite (Hve kw err) by (try apply Hin; auto using in_eq).
      apply IH. intros kw' Hkw'. apply Hin. right. exact Hkw'. }
    split; [apply Heq; auto|].
    unfold load_dataset. rewrite Heq by auto.
    cbn [attempts ladder_spec].
    destruct (dataset_load None); [reflexivity|].
    destruct (dataset_load (Some [("encoding", Some "latin-1")])); [reflexivity|].
    destruct (dataset_load _); reflexivity.
  - intros before kw after err Hsplit Hbefore Hkw Hcls other Hother.
    unfold load_dataset. rewrite Hsplit. clear Hsplit.
    generalize (@None Exn.t) as last_err.
    induction before as [|k before IH]; intros last_err; cbn [app try_attempts].
    + rewrite (Hother kw) by (left; reflexivity). rewrite Hkw, Hcls. reflexivity.
    + rewrite (Hother k) by (left; reflexivity).
      destruct (Hbefore k (or_introl eq_refl)) as (e & -> & ->).
      apply IH.
      * intros k' Hk'. apply Hbefore. right. exact Hk'.
      * intros k' Hk'. apply Hother. right. exact Hk'.
Qed.

Lemma load_dataset_ladder_witness :
  (load_dataset nat latin1_only = load_dataset_spec nat latin1_only /\
   load_dataset nat latin1_only = Ok 1%nat) /\
  load_dataset nat flaky = Raise (Exn.mk Exn.OSError "Connection refused").
Proof.
  destruct (load_dataset_ladder nat latin1_only) as (_ & Hladder & _).
  destruct (load_dataset_ladder nat flaky) as (_ & _ & Hother).
  split.
  - apply Hladder. intros [kw|] err _; cbn; [discriminate|].
    intros [= <-]. reflexivity.
  - apply (Hother [] None
             [Some [("encoding", Some "latin-1")];
              Some [("encoding", Some "latin-1"); ("engine", Some "python");
                    ("sep", None); ("on_bad_lines", Some "skip")]]
             (Exn.mk Exn.OSError "Connection refused"));
      [reflexivity | intros k [] | reflexivity | reflexivity | reflexivity].
Defined.

End DataFetchingFacts.

(** ** The two passes on a date column read as text *)








(** * Further properties of the code *)

(** ** [resolve_paths] *)

(** [resolve_paths] returns only a path that is a file, and that path is
    the one asked for: the [--csv] argument when one is given, or else the
    candidate [data/raw/itineraries.csv]. *)
Theorem resolve_paths_is_file e fs user_csv csv_path :
  resolve_paths e fs user_csv = Ok csv_path ->
  csv_path = requested_csv e user_csv /\ is_Some (fs !! csv_path).
Proof.
  unfold resolve_paths, requested_csv.
  destruct (truthy user_csv) as [p|].
  - case_bool_decide as Hp; [|discriminate]. intros [= <-]. split; [reflexivity | exact Hp].
  - cbn [candidates first_candidate].
    case_bool_decide as Hp; [|discriminate]. intros [= <-]. split; [reflexivity | exact Hp].
Qed.

Lemma resolve_paths_is_file_witness :
  "/data/raw/itineraries.csv" = requested_csv (mk_env "" true) None /\
  is_Some (demo_fs !! "/data/raw/itineraries.csv").
Proof.
  apply (resolve_paths_is_file (mk_env "" true) demo_fs None). vm_compute. reflexivity.
Defined.

(** A [--csv] path that is no file is an error, also when the candidate
    under [data/raw] is there: the explicit path has no fallback. *)
Theorem resolve_paths_no_fallback e fs user_csv csv_path :
  truthy user_csv = Some csv_path ->
  fs !! csv_path = None ->
  resolve_paths e fs user_csv =
    raise Exn.FileNotFoundError ("Provided --csv not found: " +:+ csv_path).
Proof.
  intros Hu Hp. unfold resolve_paths. rewrite Hu.
  rewrite bool_decide_eq_false_2; [reflexivity|].
  rewrite Hp. intros [? [=]].
Qed.

Lemma resolve_paths_no_fallback_witness :
  is_Some (demo_fs !! requested_csv (mk_env "" true) None) /\
  resolve_paths (mk_env "" true) demo_fs (Some "/tmp/missing.csv") =
    raise Exn.FileNotFoundError "Provided --csv not found: /tmp/missing.csv".
Proof.
  split; [vm_compute; eexists; reflexivity|].
  apply (resolve_paths_no_fallback (mk_env "" true) demo_fs (Some "/tmp/missing.csv"));
    reflexivity.
Defined.

(** ** The loop over [vc.items()] *)

Lemma add_count_comm m x y :
  add_count (add_count m x) y = add_count (add_count m y) x.
Proof.
  destruct x as [d1 c1], y as [d2 c2]. unfold add_count. cbn [fst snd].
  apply map_eq. intros d.
  destruct (decide (d1 = d2)) as [->|Hne].
  - rewrite !lookup_insert_eq, !insert_insert_eq. cbn [default].
    destruct (decide (d2 = d)) as [->|Hd].
    + rewrite !lookup_insert_eq. f_equal. unfold id. lia.
    + rewrite !lookup_insert_ne by assumption. reflexivity.
  - rewrite !(lookup_insert_ne _ d1 d2), !(lookup_insert_ne _ d2 d1) by congruence.
    destruct (decide (d1 = d)) as [->|Hd1]; destruct (decide (d2 = d)) as [->|Hd2];
      try congruence;
      rewrite ?lookup_insert_eq, ?lookup_insert_ne by congruence;
      rewrite ?lookup_insert_eq, ?lookup_insert_ne by congruence; reflexivity.
Qed.

(** The counts dict after the loop over [vc.items()] does not depend on the
    order in which [value_counts] hands out its pairs. *)
Theorem merge_counts_any_order vc1 vc2 m :
  vc1 ≡ₚ vc2 -> merge_counts m vc1 = merge_counts m vc2.
Proof.
  intros Hp. revert m. unfold merge_counts.
  induction Hp as [|x l1 l2 _ IH|x y l|l1 l2 l3 _ IH1 _ IH2]; intros m; cbn [foldl].
  - reflexivity.
  - apply IH.
  - rewrite add_count_comm. reflexivity.
  - rewrite IH1. apply IH2.
Qed.

Lemma merge_counts_any_order_witness :
  merge_counts {[ "2022-01-01" := 4%nat ]}
    [("2022-01-01", 2%nat); ("2022-01-02", 1%nat)] =
  merge_counts {[ "2022-01-01" := 4%nat ]}
    [("2022-01-02", 1%nat); ("2022-01-01", 2%nat)].
Proof. apply merge_counts_any_order. apply perm_swap. Defined.

(** ** The shape of the daily count table *)

#[global] Instance item_le_total : Total item_le.
Proof.
  intros [d1 c1] [d2 c2]. unfold item_le, String.ltb. cbn [fst snd].
  rewrite (String.compare_antisym d2 d1).
  destruct (String.compare d1 d2) eqn:E; cbn.
  - apply String.compare_eq_iff in E as ->.
    destruct (Nat.le_ge_cases c1 c2); [left|right]; right; split; auto.
  - left. left. reflexivity.
  - right. left. reflexivity.
Qed.

Lemma string_ltb_irrefl s : String.ltb s s = false.
Proof. unfold String.ltb. rewrite string_compare_refl. reflexivity. Qed.

Lemma sorted_items_strict (m : gmap string nat) :
  Sorted date_lt (sorted_items m) /\ NoDup (map fst (sorted_items m)).
Proof.
  assert (NoDup (map fst (sorted_items m))) as Hnd.
  { unfold sorted_items. change (map fst ?l) with (fst <$> l).
    rewrite merge_sort_Permutation. apply NoDup_fst_map_to_list. }
  split; [|exact Hnd].
  assert (Sorted item_le (sorted_items m)) as Hs by apply Sorted_merge_sort, _.
  induction Hs as [|x l Hl IH Hhd]; [constructor|].
  cbn [map] in Hnd. apply NoDup_cons in Hnd as [Hx Hnd].
  constructor; [apply IH, Hnd|].
  destruct Hhd as [|y l Hxy]; constructor.
  destruct Hxy as [Hlt | [Heq _]]; [exact Hlt|].
  exfalso. apply Hx. rewrite Heq. cbn [map]. apply elem_of_cons. left. reflexivity.
Qed.

(** The table [compute_daily_counts] returns is in strictly ascending order
    of its dates, so holds every date once. *)
Theorem daily_counts_strictly_ascending fs csv_path date_column chunksize t :
  compute_daily_counts fs csv_path date_column chunksize = Ok t ->
  Sorted date_lt t /\ NoDup (map fst t).
Proof.
  unfold compute_daily_counts.
  destruct (read_csv_usecols fs csv_path date_column chunksize) as [chunks|e];
    cbn [mbind result_bind]; [|discriminate].
  intros [= <-]. apply sorted_items_strict.
Qed.

Lemma daily_counts_strictly_ascending_witness :
  Sorted date_lt [("2022-01-01", 2%nat); ("2022-01-02", 3%nat); ("2022-01-03", 1%nat)] /\
  NoDup (map fst [("2022-01-01", 2%nat); ("2022-01-02", 3%nat); ("2022-01-03", 1%nat)]).
Proof.
  apply (daily_counts_strictly_ascending demo_fs "/data/raw/itineraries.csv"
           "flightDate" 2).
  vm_compute. reflexivity.
Defined.

Lemma counts_of_same_occurrences vals1 vals2 m :
  (forall d, count_occ string_dec vals1 d = count_occ string_dec vals2 d) ->
  counts_of vals1 m -> counts_of vals2 m.
Proof. intros H Hm d. rewrite <- (H d). apply Hm. Qed.

(** The daily count table does not depend on the order of the records in
    the source: two well-formed files (distinct, non-empty header labels, no
    record longer than the header) with the same header whose records are
    a rearrangement of each other give the same table (or the same error),
    each with a chunk size of its own. *)
Theorem daily_counts_any_row_order fs1 fs2 path1 path2 src1 src2 date_column
    (n1 n2 : Z) :
  fs1 !! path1 = Some src1 ->
  fs2 !! path2 = Some src2 ->
  well_formed src1 ->
  well_formed src2 ->
  columns src1 = columns src2 ->
  rows src1 ≡ₚ rows src2 ->
  (1 <= n1)%Z -> (1 <= n2)%Z ->
  compute_daily_counts fs1 path1 date_column n1 =
  compute_daily_counts fs2 path2 date_column n2.
Proof.
  intros H1 H2 _ _ Hcols Hrows Hn1 Hn2.
  destruct (index_of date_column (columns src1)) as [i|] eqn:Hi.
  - destruct (compute_daily_counts_counts _ _ _ n1 _ _ H1 Hi Hn1) as (m1 & Hm1 & ->).
    rewrite Hcols in Hi.
    destruct (compute_daily_counts_counts _ _ _ n2 _ _ H2 Hi Hn2) as (m2 & Hm2 & ->).
    f_equal. f_equal. apply (counts_of_unique (dates i src2)); [|exact Hm2].
    apply (counts_of_same_occurrences (dates i src1)); [|exact Hm1].
    apply Permutation_count_occ. unfold dates.
    apply omap_Permutation, Permutation_map, Hrows.
  - unfold compute_daily_counts, read_csv_usecols, open_csv.
    destruct (Z.ltb_spec n1 1); [lia|]. destruct (Z.ltb_spec n2 1); [lia|].
    rewrite H1, H2, <- Hcols.
    destruct (columns src1) eqn:E; [reflexivity|].
    cbn [mbind result_bind]. rewrite <- Hcols, E, Hi. reflexivity.
Qed.

Lemma daily_counts_any_row_order_witness :
  compute_daily_counts demo_fs "/data/raw/itineraries.csv" "flightDate" 2 =
  compute_daily_counts
    {[ "/b.csv" := mk_csv ["legId"; "flightDate"]
         [ ["b"; "2022-01-01"]; ["a"; "2022-01-02"]; ["c"; "2022-01-02"];
           ["d"; "2022-01-03"]; ["e"; "2022-01-01"]; ["f"; "2022-01-02"] ] ]}
    "/b.csv" "flightDate" 5.
Proof.
  eapply (daily_counts_any_row_order demo_fs _ "/data/raw/itineraries.csv" "/b.csv"
            demo_csv).
  - reflexivity.
  - reflexivity.
  - apply well_formed_check. vm_compute. reflexivity.
  - apply well_formed_check. vm_compute. reflexivity.
  - reflexivity.
  - apply perm_swap.
  - lia.
  - lia.
Defined.

(** ** [get_middle_date] *)

Lemma merge_sort_dates (t1 t2 : daily_counts_table) :
  t1 ≡ₚ t2 ->
  map fst (merge_sort date_le t1) = map fst (merge_sort date_le t2).
Proof.
  intros Hp. apply sorted_dates_unique.
  - rewrite !merge_sort_Permutation. exact Hp.
  - apply Sorted_merge_sort, _.
  - apply Sorted_merge_sort, _.
Qed.

(** What [get_middle_date] computes, in terms of the sorted dates alone. *)
Lemma get_middle_date_dates (t : daily_counts_table) date_column :
  date_column <> "count" ->
  get_middle_date t date_column =
    match map fst (merge_sort date_le t) !! (length t / 2)%nat with
    | Some d => Ok d
    | None => raise Exn.IndexError "single positional indexer is out-of-bounds"
    end.
Proof.
  intros Hcol%String.eqb_neq. unfold get_middle_date. rewrite Hcol.
  rewrite (Permutation_length (merge_sort_Permutation date_le t)).
  change (map fst ?l) with (fst <$> l). rewrite list_lookup_fmap.
  destruct (merge_sort date_le t !! (length t / 2)%nat); reflexivity.
Qed.

Lemma get_middle_date_nonempty (t : daily_counts_table) date_column :
  t <> [] -> date_column <> "count" ->
  exists d, get_middle_date t date_column = Ok d /\ In d (map fst t).
Proof.
  intros Hne Hcol. rewrite get_middle_date_dates by exact Hcol.
  assert (length t / 2 < length (map fst (merge_sort date_le t)))%nat as Hlt.
  { rewrite length_map, (Permutation_length (merge_sort_Permutation date_le t)).
    destruct t; [congruence|]. apply Nat.div_lt; cbn; lia. }
  destruct (lookup_lt_is_Some_2 _ _ Hlt) as [d Hd]. rewrite Hd.
  exists d. split; [reflexivity|].
  apply list_elem_of_lookup_2 in Hd. apply list_elem_of_In in Hd.
  apply in_map_iff in Hd as (x & <- & Hx). apply in_map.
  apply list_elem_of_In. rewrite <- (merge_sort_Permutation date_le t).
  apply list_elem_of_In, Hx.
Qed.

(** [get_middle_date] sorts the table itself: for a date column that is
    not labelled ["count"], the order in which the table lists its rows does
    not change the result. *)
Theorem get_middle_date_any_order (t1 t2 : daily_counts_table) date_column :
  t1 ≡ₚ t2 ->
  date_column <> "count" ->
  get_middle_date t1 date_column = get_middle_date t2 date_column.
Proof.
  intros Hp Hcol. rewrite !get_middle_date_dates by exact Hcol.
  rewrite (merge_sort_dates t1 t2 Hp), (Permutation_length Hp). reflexivity.
Qed.

Lemma get_middle_date_any_order_witness :
  get_middle_date [("2022-01-03", 1%nat); ("2022-01-01", 2%nat); ("2022-01-02", 3%nat)]
    "flightDate" =
  get_middle_date [("2022-01-01", 2%nat); ("2022-01-03", 1%nat); ("2022-01-02", 3%nat)]
    "flightDate".
Proof.
  apply get_middle_date_any_order; [|discriminate].
  apply perm_trans with
    [("2022-01-01", 2%nat); ("2022-01-03", 1%nat); ("2022-01-02", 3%nat)];
    [apply perm_swap | reflexivity].
Defined.

(** On a non-empty table, of a date column that is not labelled ["count"],
    [get_middle_date] returns, and the date it returns is a date of the
    table. *)
Theorem get_middle_date_in_table (t : daily_counts_table) date_column :
  t <> [] -> date_column <> "count" ->
  exists d, get_middle_date t date_column = Ok d /\ In d (map fst t).
Proof. apply get_middle_date_nonempty. Qed.

Lemma get_middle_date_in_table_witness :
  exists d, get_middle_date [("2022-01-02", 3%nat)] "flightDate" = Ok d /\
            In d (map fst [("2022-01-02", 3%nat)]).
Proof. apply get_middle_date_in_table; discriminate. Defined.

(** ** What [write_truncated_day] writes *)

(** Without the date column the first chunk already fails, before any
    write. *)
Lemma write_truncated_day_no_column fs csv_path out col target chunksize src :
  fs !! csv_path = Some src ->
  columns src <> [] ->
  index_of col (columns src) = None ->
  (1 <= chunksize)%Z ->
  write_truncated_day fs csv_path out col target chunksize =
    (fs, raise Exn.ValueError ("Column '" +:+ col +:+ "' not found in CSV.")).
Proof.
  intros Hsrc Hcols Hcol Hn.
  unfold write_truncated_day, read_csv, open_csv.
  destruct (Z.ltb_spec chunksize 1); [lia|]. rewrite Hsrc.
  destruct (columns src) eqn:E; [congruence|].
  cbn [mbind result_bind]. rewrite E.
  destruct (rows src) as [|r rs];
    cbn [iter_chunks map write_chunks parse_chunk frame_columns].
  - rewrite Hcol. reflexivity.
  - unfold chunks_of. cbn [length chunks_aux map write_chunks parse_chunk frame_columns].
    rewrite Hcol. reflexivity.
Qed.

(** The ways a call of [write_truncated_day] can go: it fails before the
    first write, with an error that depends on the file read only, or the
    file is there with the date column and a chunk size of 1 or more. *)
Lemma write_truncated_day_cases (fs : filesystem) csv_path out col target chunksize :
  (exists e, forall fs' : filesystem, fs' !! csv_path = fs !! csv_path ->
     write_truncated_day fs' csv_path out col target chunksize = (fs', Raise e)) \/
  (exists src i, fs !! csv_path = Some src /\
     index_of col (columns src) = Some i /\ (1 <= chunksize)%Z).
Proof.
  destruct (Z.ltb_spec chunksize 1) as [Hn|Hn].
  { left. eexists. intros fs' _. unfold write_truncated_day, read_csv, open_csv.
    destruct (Z.ltb_spec chunksize 1); [reflexivity | lia]. }
  destruct (fs !! csv_path) as [src|] eqn:Hsrc.
  2:{ left. eexists. intros fs' Hfs'. unfold write_truncated_day, read_csv, open_csv.
      destruct (Z.ltb_spec chunksize 1); [lia|]. rewrite Hfs'. reflexivity. }
  destruct (columns src) as [|c cols] eqn:Hcols.
  { left. eexists. intros fs' Hfs'. unfold write_truncated_day, read_csv, open_csv.
    destruct (Z.ltb_spec chunksize 1); [lia|]. rewrite Hfs', Hcols. reflexivity. }
  destruct (index_of col (columns src)) as [i|] eqn:Hi.
  { right. exists src, i. rewrite Hcols in Hi |- *. auto. }
  left. eexists. intros fs' Hfs'.
  apply (write_truncated_day_no_column fs' csv_path out col target chunksize src);
    [rewrite Hfs'; reflexivity | rewrite Hcols; discriminate | exact Hi | exact Hn].
Qed.

(** [write_truncated_day] touches no path but [output_path]: every other
    file is after the call what it was before, however the call ends. *)
Theorem write_truncated_day_other_files fs csv_path output_path date_column
    target_date chunksize p :
  p <> output_path ->
  fst (write_truncated_day fs csv_path output_path date_column target_date chunksize)
    !! p = fs !! p.
Proof.
  intros Hp.
  destruct (write_truncated_day_cases fs csv_path output_path date_column
              target_date chunksize) as [[e He] | (src & i & Hsrc & Hi & Hn)].
  - rewrite (He fs eq_refl). reflexivity.
  - rewrite (write_truncated_day_selected _ _ _ _ _ _ _ _ Hsrc Hi Hn). cbn [fst].
    destruct (selected i target_date (frames src chunksize)); [reflexivity|].
    apply lookup_insert_ne. congruence.
Qed.

Lemma write_truncated_day_other_files_witness :
  fst (write_truncated_day demo_fs "/data/raw/itineraries.csv" "/out.csv"
         "flightDate" "2022-01-02" 2) !! "/data/raw/itineraries.csv"
  = demo_fs !! "/data/raw/itineraries.csv".
Proof. apply write_truncated_day_other_files. discriminate. Defined.

(** Running [write_truncated_day] a second time, with the same arguments
    and on the filesystem the first run left, changes nothing and ends as the
    first run did (the output being another file than the source). *)
Theorem write_truncated_day_twice fs csv_path output_path date_column
    target_date chunksize :
  output_path <> csv_path ->
  write_truncated_day
    (fst (write_truncated_day fs csv_path output_path date_column target_date
            chunksize))
    csv_path output_path date_column target_date chunksize =
  write_truncated_day fs csv_path output_path date_column target_date chunksize.
Proof.
  intros Hp.
  destruct (write_truncated_day_cases fs csv_path output_path date_column
              target_date chunksize) as [[e He] | (src & i & Hsrc & Hi & Hn)].
  - rewrite (He fs eq_refl). cbn [fst]. apply He. reflexivity.
  - rewrite (write_truncated_day_selected _ _ _ _ _ _ _ _ Hsrc Hi Hn). cbn [fst].
    destruct (selected i target_date (frames src chunksize)) as [|pr prs] eqn:Hsel.
    + rewrite (write_truncated_day_selected _ _ _ _ _ _ _ _ Hsrc Hi Hn), Hsel.
      reflexivity.
    + assert (<[output_path := mk_csv (columns src) (render (pr :: prs))]> fs
                !! csv_path = Some src) as Hsrc'
        by (rewrite lookup_insert_ne by exact Hp; exact Hsrc).
      rewrite (write_truncated_day_selected _ _ _ _ _ _ _ _ Hsrc' Hi Hn), Hsel.
      rewrite insert_insert_eq. reflexivity.
Qed.

Lemma write_truncated_day_twice_witness :
  write_truncated_day
    (fst (write_truncated_day demo_fs "/data/raw/itineraries.csv" "/out.csv"
            "flightDate" "2022-01-02" 2))
    "/data/raw/itineraries.csv" "/out.csv" "flightDate" "2022-01-02" 2 =
  write_truncated_day demo_fs "/data/raw/itineraries.csv" "/out.csv"
    "flightDate" "2022-01-02" 2.
Proof. apply write_truncated_day_twice. discriminate. Defined.

(** A file that is at [output_path] before the call is replaced as a whole
    when the call writes, and stays as it is when the call writes nothing
    (no row kept, or an error): the file found there afterwards is the one
    a run without it would have written, or else the old one. *)
Theorem write_truncated_day_old_output fs csv_path output_path date_column
    target_date chunksize old :
  output_path <> csv_path ->
  fs !! output_path = None ->
  fst (write_truncated_day (<[ output_path := old ]> fs) csv_path output_path
         date_column target_date chunksize) !! output_path =
  Some (default old
          (fst (write_truncated_day fs csv_path output_path date_column
                  target_date chunksize) !! output_path)).
Proof.
  intros Hp Hnone.
  destruct (write_truncated_day_cases fs csv_path output_path date_column
              target_date chunksize) as [[e He] | (src & i & Hsrc & Hi & Hn)].
  - rewrite (He fs eq_refl), (He (<[output_path := old]> fs))
      by (apply lookup_insert_ne; exact Hp).
    cbn [fst]. rewrite lookup_insert_eq, Hnone. reflexivity.
  - assert (<[output_path := old]> fs !! csv_path = Some src) as Hsrc'
      by (rewrite lookup_insert_ne by exact Hp; exact Hsrc).
    rewrite (write_truncated_day_selected _ _ _ _ _ _ _ _ Hsrc Hi Hn).
    rewrite (write_truncated_day_selected _ _ _ _ _ _ _ _ Hsrc' Hi Hn). cbn [fst].
    destruct (selected i target_date (frames src chunksize)).
    + rewrite lookup_insert_eq, Hnone. reflexivity.
    + rewrite !lookup_insert_eq. reflexivity.
Qed.

Lemma write_truncated_day_old_output_witness :
  fst (write_truncated_day (<[ "/out.csv" := undated_csv ]> demo_fs)
         "/data/raw/itineraries.csv" "/out.csv" "flightDate" "1999-12-31" 2)
    !! "/out.csv" =
  Some (default undated_csv
          (fst (write_truncated_day demo_fs "/data/raw/itineraries.csv" "/out.csv"
                  "flightDate" "1999-12-31" 2) !! "/out.csv")).
Proof. apply write_truncated_day_old_output; [discriminate | reflexivity]. Defined.







(** ** The chunk size *)



(** ** [main] *)




(** The file of the daily counts holds the whole table: two tables written
    alike are the same table, under the same column name. *)
Theorem daily_counts_csv_inj col1 col2 (t1 t2 : daily_counts_table) :
  daily_counts_csv col1 t1 = daily_counts_csv col2 t2 -> col1 = col2 /\ t1 = t2.
Proof.
  unfold daily_counts_csv. intros [= Hcol Hrows]. split; [exact Hcol|].
  clear Hcol. revert t2 Hrows.
  induction t1 as [|[d1 c1] t1 IH]; intros [|[d2 c2] t2]; cbn [map fst snd];
    try discriminate; [reflexivity|].
  intros [= Hd Hc Ht]. apply (inj pretty) in Hc. subst.
  f_equal. apply IH, Ht.
Qed.

Lemma daily_counts_csv_inj_witness :
  "flightDate" = "flightDate" /\
  [("2022-01-01", 2%nat)] = [("2022-01-01", 2%nat)].
Proof.
  apply (daily_counts_csv_inj "flightDate" "flightDate"). reflexivity.
Defined.

(** ** [load_dataset] *)

Module LoaderFacts.
Import DataFetching.

(** Whatever the three attempts do, [load_dataset] ends as one of them did:
    with the frame of an attempt or with the exception of an attempt, never
    with anything of its own. *)
Theorem load_dataset_is_an_attempt (DataFrame : Type)
    (dataset_load : kwargs -> result DataFrame) :
  exists kw, In kw attempts /\ load_dataset DataFrame dataset_load = dataset_load kw.
Proof.
  unfold load_dataset. cbn [attempts try_attempts].
  destruct (dataset_load None) as [df1|e1] eqn:H1.
  { exists None. rewrite H1. split; [left|]; reflexivity. }
  destruct (Exn.is_ValueError e1).
  2:{ exists None. rewrite H1. split; [left|]; reflexivity. }
  destruct (dataset_load (Some [("encoding", Some "latin-1")])) as [df2|e2] eqn:H2.
  { eexists. rewrite H2. split; [right; left|]; reflexivity. }
  destruct (Exn.is_ValueError e2).
  2:{ eexists. rewrite H2. split; [right; left|]; reflexivity. }
  destruct (dataset_load (Some [("encoding", Some "latin-1"); ("engine", Some "python");
                               ("sep", None); ("on_bad_lines", Some "skip")]))
    as [df3|e3] eqn:H3.
  { eexists. rewrite H3. split; [right; right; left|]; reflexivity. }
  destruct (Exn.is_ValueError e3);
    eexists; rewrite H3; (split; [right; right; left|]; reflexivity).
Qed.

(** When [load_dataset] raises a [ValueError] (or an exception derived from
    it), all three attempts were made and failed with one, and the exception
    raised is that of the third. *)
Theorem load_dataset_value_error (DataFrame : Type)
    (dataset_load : kwargs -> result DataFrame) err :
  load_dataset DataFrame dataset_load = Raise err ->
  Exn.is_ValueError err = true ->
  (forall kw, In kw attempts ->
     exists e, dataset_load kw = Raise e /\ Exn.is_ValueError e = true) /\
  exists a3, last attempts = Some a3 /\ dataset_load a3 = Raise err.
Proof.
  unfold load_dataset. cbn [attempts try_attempts last].
  destruct (dataset_load None) as [df1|e1] eqn:H1; [discriminate|].
  destruct (Exn.is_ValueError e1) eqn:V1; [|intros [= <-]; congruence].
  destruct (dataset_load (Some [("encoding", Some "latin-1")])) as [df2|e2] eqn:H2;
    [discriminate|].
  destruct (Exn.is_ValueError e2) eqn:V2; [|intros [= <-]; congruence].
  destruct (dataset_load (Some [("encoding", Some "latin-1"); ("engine", Some "python");
                               ("sep", None); ("on_bad_lines", Some "skip")]))
    as [df3|e3] eqn:H3; [discriminate|].
  assert (e3 = err -> Exn.is_ValueError err = true ->
          (forall kw, In kw attempts ->
             exists e, dataset_load kw = Raise e /\ Exn.is_ValueError e = true) /\
          exists a3,
            Some (Some [("encoding", Some "latin-1"); ("engine", Some "python");
                        ("sep", None); ("on_bad_lines", Some "skip")]) = Some a3 /\
            dataset_load a3 = Raise err) as Hfin.
  { intros <- V3. split; [|eexists; split; [reflexivity | exact H3]].
    intros kw [<-|[<-|[<-|[]]]]; eauto. }
  destruct (Exn.is_ValueError e3); intros [= ->] V; apply Hfin; auto.
Qed.

Lemma load_dataset_value_error_witness :
  (forall kw, In kw attempts ->
     exists e, unparsable kw = Raise e /\ Exn.is_ValueError e = true) /\
  exists a3, last attempts = Some a3 /\
    unparsable a3 = Raise (Exn.mk Exn.ParserError "Error tokenizing data").
Proof.
  apply (load_dataset_value_error nat unparsable); reflexivity.
Defined.

End LoaderFacts.

(** ** The two passes on text dates *)

